(** * Triage call agent: the demo checkout boundary and the triage core

    The repository ships a Next.js demo (a create-order route handler and
    three variants of the checkout client) next to a Python triage core.
    The first part of this file embeds the TypeScript sources; the second
    part models the triage core, whose sources are not part of the tree
    that was verified, from its specification. *)

From Stdlib Require Import String Ascii List Bool Arith ZArith QArith Lia.
From Stdlib Require Import DecimalString SpecFloat.
Import ListNotations.

#[local] Set Warnings "-register-all".
Local Close Scope Q_scope.
Local Open Scope string_scope.
Local Open Scope list_scope.
Local Open Scope nat_scope.

(** ** JavaScript values that cross the HTTP boundary *)

Module Js.

(** An IEEE-754 double, as the language has it for [number]. *)
Definition number := spec_float.

(** The value [JSON.parse] yields for a JSON document.  Objects keep their
    own properties in enumeration order, which is what [Object.keys]
    reports.  [undefined] is not a JSON value: a property read returns
    [option json], with [None] standing for [undefined]. *)
Inductive json : Type :=
| JNull
| JBool (b : bool)
| JNumber (x : number)
| JString (s : string)
| JArray (items : list json)
| JObject (fields : list (string * json)).

(** What sits in the body of an HTTP message: text that is no JSON
    document, or the document the text denotes. *)
Inductive payload : Type :=
| NotJson (text : string)
| JsonDoc (doc : json).

Inductive JsError : Type :=
| SyntaxError
| TypeError
| AbortError
| Error (message : json).

(** A settled promise: fulfilled with a value or rejected with an error.
    A [throw] inside an [async] function is a rejection. *)
Inductive outcome (A : Type) : Type :=
| Resolved (a : A)
| Rejected (e : JsError).

Arguments Resolved {A} a.
Arguments Rejected {A} e.

Definition bind {A B : Type} (c : outcome A) (k : A -> outcome B) : outcome B :=
  match c with
  | Resolved a => k a
  | Rejected e => Rejected e
  end.

Definition is_resolved {A : Type} (c : outcome A) : bool :=
  match c with Resolved _ => true | Rejected _ => false end.

Fixpoint assoc {V : Type} (k : string) (fields : list (string * V)) : option V :=
  match fields with
  | [] => None
  | (k', v) :: rest => if String.eqb k k' then Some v else assoc k rest
  end.

(** [v.k] for a name [k] that is neither an array index nor [length] nor a
    member of a built-in prototype (the sources read [currency] and
    [message] only).  Reading a property of [null] throws. *)
Definition get (v : json) (k : string) : outcome (option json) :=
  match v with
  | JNull => Rejected TypeError
  | JObject fields => Resolved (assoc k fields)
  | JBool _ | JNumber _ | JString _ | JArray _ => Resolved None
  end.

(** ToBoolean. *)
Definition truthy_number (x : number) : bool :=
  match x with
  | S754_zero _ | S754_nan => false
  | S754_infinity _ | S754_finite _ _ _ => true
  end.

Definition truthy (v : option json) : bool :=
  match v with
  | None => false
  | Some JNull => false
  | Some (JBool b) => b
  | Some (JNumber x) => truthy_number x
  | Some (JString s) => negb (String.eqb s EmptyString)
  | Some (JArray _) | Some (JObject _) => true
  end.

(** [a || b] on values. *)
Definition or_else (a : option json) (b : json) : json :=
  match a with
  | Some v => if truthy a then v else b
  | None => b
  end.

Definition index_keys (n : nat) : list string :=
  map (fun i => NilEmpty.string_of_uint (Nat.to_uint i)) (seq 0 n).

(** [Object.keys(v)].  A string is taken to hold one code unit per
    character. *)
Definition Object_keys (v : json) : outcome (list string) :=
  match v with
  | JNull => Rejected TypeError
  | JBool _ | JNumber _ => Resolved []
  | JString s => Resolved (index_keys (String.length s))
  | JArray items => Resolved (index_keys (List.length items))
  | JObject fields => Resolved (map fst fields)
  end.

(** [JSON.stringify] of a number: a finite double is written so that it
    reads back as itself (negative zero is written [0]); the others are
    written [null]. *)
Definition JSON_stringify_number (x : number) : json :=
  match x with
  | S754_zero _ => JNumber (S754_zero false)
  | S754_finite _ _ _ => JNumber x
  | S754_infinity _ | S754_nan => JNull
  end.

Definition upper_ascii (c : ascii) : ascii :=
  let n := nat_of_ascii c in
  if (97 <=? n) && (n <=? 122) then ascii_of_nat (n - 32) else c.

(** [s.toUpperCase()] on ASCII text. *)
Fixpoint toUpperCase (s : string) : string :=
  match s with
  | EmptyString => EmptyString
  | String c rest => String (upper_ascii c) (toUpperCase rest)
  end.

(** [s.substr(start, length)] for non-negative arguments. *)
Definition substr (start len : nat) (s : string) : string :=
  String.substring start len s.

(** Does the object [v] have an own property [k]? *)
Definition has_field (v : json) (k : string) : bool :=
  match v with
  | JObject fields =>
      match assoc k fields with Some _ => true | None => false end
  | _ => false
  end.

(** [v.k1.k2] present, for objects. *)
Definition has_path (v : json) (k1 k2 : string) : bool :=
  match v with
  | JObject fields =>
      match assoc k1 fields with
      | Some inner => has_field inner k2
      | None => false
      end
  | _ => false
  end.

Definition json_is_null (v : json) : bool :=
  match v with JNull => true | _ => false end.

Definition field (v : json) (k : string) : option json :=
  match v with
  | JObject fields => assoc k fields
  | _ => None
  end.

End Js.

Import Js.

Declare Scope js_scope.
Delimit Scope js_scope with js.
Notation "x <- c ;; k" := (Js.bind c (fun x => k))
  (at level 61, c at next level, right associativity) : js_scope.
Local Open Scope js_scope.

(** ** The Fetch API objects the sources use *)

Module Http.

Record Request : Type := mkRequest {
  url : string;
  method : string;
  headers : list (string * string);
  req_body : payload;
  (** the timer behind [signal], when the caller passed one *)
  signal : option nat
}.

Record Response : Type := mkResponse {
  status : nat;
  res_body : payload
}.

(** [request.json()] and [response.json()]. *)
Definition parse (p : payload) : outcome json :=
  match p with
  | NotJson _ => Rejected SyntaxError
  | JsonDoc doc => Resolved doc
  end.

Definition Request_json (request : Request) : outcome json :=
  parse (req_body request).

Definition Response_json (res : Response) : outcome json :=
  parse (res_body res).

(** [res.ok] *)
Definition ok (res : Response) : bool :=
  (200 <=? status res) && (status res <=? 299).

(** [NextResponse.json(data, init)]: the status defaults to 200. *)
Definition NextResponse_json (data : json) (init_status : option nat) : Response :=
  {| status := match init_status with Some s => s | None => 200 end;
     res_body := JsonDoc data |}.

End Http.

Import Http.

(** ** vercel_demo/app/api/create-order/route.ts *)

Module Route.

Definition missing_currency_message : string :=
  "Missing required field: currency. Backend validation requires 'currency' field in payment request.".

(** [POST].  [random36] is [Math.random().toString(36)], drawn on the
    success path. *)
Definition POST (random36 : string) (request : Request) : outcome Response :=
  body <- Request_json request ;;
  currency <- get body "currency" ;;
  if negb (truthy currency) then
    received <- Object_keys body ;;
    Resolved (NextResponse_json
      (JObject
         [ ("error", JString "BILLING_400");
           ("message", JString missing_currency_message);
           ("details",
             JObject
               [ ("received_fields", JArray (map JString received));
                 ("required_fields",
                   JArray [JString "paymentIntentId"; JString "amount"; JString "currency"]);
                 ("missing_fields", JArray [JString "currency"]) ]) ])
      (Some 400))
  else
    Resolved (NextResponse_json
      (JObject
         [ ("success", JBool true);
           ("order_id",
             JString (String.append "ORD-" (toUpperCase (substr 2 9 random36))));
           ("message", JString "Order created successfully") ])
      None).

(** The route as the framework mounts it: the file's directory is the path,
    the exported name is the method, and a handler that throws is answered
    with a 500 whose body is not JSON. *)
Definition serve (random36 : string) (request : Request) : outcome Response :=
  if negb (String.eqb (url request) "/api/create-order") then
    Resolved {| status := 404; res_body := NotJson "Not Found" |}
  else if negb (String.eqb (method request) "POST") then
    Resolved {| status := 405; res_body := NotJson "Method Not Allowed" |}
  else
    match POST random36 request with
    | Resolved res => Resolved res
    | Rejected _ =>
        Resolved {| status := 500; res_body := NotJson "Internal Server Error" |}
    end.

End Route.

Import Route.

(** ** The checkout clients *)

Module Checkout.

(** Pending timers of the page: [setTimeout] arms one and hands back its
    id, [clearTimeout] disarms it. *)
Record Timers : Type := mkTimers {
  next_id : nat;
  armed : list (nat * N)
}.

Definition setTimeout (delay : N) (ts : Timers) : nat * Timers :=
  (next_id ts,
   {| next_id := S (next_id ts); armed := (next_id ts, delay) :: armed ts |}).

Definition clearTimeout (id : nat) (ts : Timers) : Timers :=
  {| next_id := next_id ts;
     armed := filter (fun t => negb (Nat.eqb (fst t) id)) (armed ts) |}.

Section Clients.

(** [fetch], the network as the client sees it. *)
Variable fetch : Request -> outcome Response.

(** demo_frontend/checkout.ts: the fixed client, with a 30 s abort timer
    disarmed in [finally] on both exits. *)
Definition createOrder (paymentIntentId : string) (amount : number)
    (ts : Timers) : outcome json * Timers :=
  let '(timeoutId, ts1) := setTimeout 30000%N ts in
  let result :=
    res <- fetch {| url := "/api/create-order";
                    method := "POST";
                    headers := [("Content-Type", "application/json")];
                    req_body :=
                      JsonDoc (JObject
                        [ ("paymentIntentId", JString paymentIntentId);
                          ("amount", JSON_stringify_number amount);
                          ("currency", JString "INR") ]);
                    signal := Some timeoutId |} ;;
    if negb (ok res) then Rejected (Error (JString "Order failed"))
    else Response_json res
  in
  (result, clearTimeout timeoutId ts1).

(** The Next.js client snippet: the fixed client with an idempotency key;
    [idempotencyKey] is the [uuidv4()] it draws. *)
Definition createOrder_idempotent (idempotencyKey : string)
    (paymentIntentId : string) (amount : number) : outcome json :=
  res <- fetch {| url := "/api/create-order";
                  method := "POST";
                  headers := [("Content-Type", "application/json");
                              ("Idempotency-Key", idempotencyKey)];
                  req_body :=
                    JsonDoc (JObject
                      [ ("paymentIntentId", JString paymentIntentId);
                        ("amount", JSON_stringify_number amount);
                        ("currency", JString "INR") ]);
                  signal := None |} ;;
  if negb (ok res) then Rejected (Error (JString "Order failed"))
  else Response_json res.

(** The checkout page's client, which leaves [currency] out. *)
Definition createOrder_buggy (paymentIntentId : string) (amount : number)
    : outcome json :=
  res <- fetch {| url := "/api/create-order";
                  method := "POST";
                  headers := [("Content-Type", "application/json")];
                  req_body :=
                    JsonDoc (JObject
                      [ ("paymentIntentId", JString paymentIntentId);
                        ("amount", JSON_stringify_number amount) ]);
                  signal := None |} ;;
  if negb (ok res) then
    error <- Response_json res ;;
    message <- get error "message" ;;
    Rejected (Error (or_else message (JString "Order failed")))
  else Response_json res.

End Clients.

End Checkout.

(** ** The triage core

    The Python packages of the core (failure injection, agents, the chair's
    state machine, RCA synthesis) are not among the sources at hand; what
    follows is their model, written from the specification. *)

Module Triage.

Inductive Role : Type := Chair | Main | SRE | Billing | Ordering | Frontend.

Definition Role_eqb (a b : Role) : bool :=
  match a, b with
  | Chair, Chair | Main, Main | SRE, SRE
  | Billing, Billing | Ordering, Ordering | Frontend, Frontend => true
  | _, _ => false
  end.

(** *** Failure injection *)

Record FailureRule : Type := mkRule {
  rule_service : string;
  rule_kind : string;
  rule_error_code : string;
  probability : Q;
  rule_payload : list (string * string)
}.

Section FailureInjector.

(** The process-wide random source: [uniform n] is its [n]-th draw.  The
    injector's only state is the number of draws taken so far. *)
Variable uniform : nat -> Q.

Definition applicable (rules : list FailureRule) (service : string)
    : list FailureRule :=
  filter (fun r => String.eqb (rule_service r) service) rules.

(** A rule triggers when its draw is below its probability. *)
Definition triggers (r : FailureRule) (u : Q) : bool :=
  negb (Qle_bool (probability r) u).

(** One draw per rule, in list order, starting at draw [n]. *)
Fixpoint draw_all (rs : list FailureRule) (n : nat) : list (FailureRule * Q) :=
  match rs with
  | [] => []
  | r :: rest => (r, uniform n) :: draw_all rest (S n)
  end.

(** Modelled from the spec: [FailureInjector.sample], absent from the
    sources.  Every rule of the service gets its own draw; of those that
    trigger the first in list order is returned, and none when none
    triggers. *)
Definition sample (rules : list FailureRule) (service : string) (n : nat)
    : option FailureRule * nat :=
  let drawn := draw_all (applicable rules service) n in
  (option_map fst (find (fun d => triggers (fst d) (snd d)) drawn),
   n + List.length drawn).

End FailureInjector.

(** *** Data model *)

Inductive TicketStatus : Type := TICKET_OPEN | IN_TRIAGE | RESOLVED.

Record Ticket : Type := mkTicket {
  ticket_id : nat;
  ticket_service : string;
  ticket_error_code : string;
  severity : string;
  ticket_opened_at : nat;
  ticket_status : TicketStatus;
  raw_payload : list (string * string)
}.

Record Guidance : Type := mkGuidance {
  guidance_text : string;
  fix_template : option string
}.

Record Runbook : Type := mkRunbook {
  agent_role : Role;
  knowledge : list (string * Guidance);
  escalation_rules : list string;
  response_templates : list (string * string)
}.

Record Finding : Type := mkFinding {
  finding_role : Role;
  finding_ticket_id : nat;
  summary : string;
  confidence : Q;
  suggested_action : option string;
  timestamp : nat
}.

Inductive ActionKind : Type := PATCH | DEPLOY | NONE.

Record Action : Type := mkAction {
  action_kind : ActionKind;
  target : string;
  diff_or_description : string;
  applied : bool
}.

Inductive State : Type :=
| OPEN | ASSESSING | DIAGNOSING | REMEDIATING | DEPLOYED | CLOSED | ABORTED.

Record TriageCall : Type := mkCall {
  call_ticket_id : nat;
  state : State;
  agent_sequence : list Role;
  findings : list Finding;
  actions : list Action;
  opened_at : nat;
  closed_at : option nat
}.

Record RCAReport : Type := mkReport {
  rca_ticket_id : nat;
  root_cause : string;
  contributing_findings : list Finding;
  remediation_summary : string;
  generated_at : option nat
}.

Record CodeLocation : Type := mkLocation {
  location_file : string;
  location_pattern : string;
  patch_template : string
}.

Inductive EventPayload : Type :=
| Transition (from to : State)
| Found (f : Finding)
| Acted (a : Action).

Record Event : Type := mkEvent {
  event_ticket_id : nat;
  event_timestamp : nat;
  event_payload : EventPayload
}.

(** What the operator configures: the runbook store's snapshot, which
    services a role owns, which domain agents a service calls for, how much
    a role trusts an entry of its runbook, the frontend's defect patterns
    and the agent-turn budget. *)
Record Config : Type := mkConfig {
  runbooks : Role -> Runbook;
  owns : Role -> string -> bool;
  domain_agents : string -> list Role;
  trust : Role -> Guidance -> Q;
  implicates_frontend : string -> bool;
  defect_patterns : list (string * CodeLocation);
  max_turns : nat
}.

(** The position of a state on the single forward pass; both terminal
    states sit at its end. *)
Definition rank (s : State) : nat :=
  match s with
  | OPEN => 0
  | ASSESSING => 1
  | DIAGNOSING => 2
  | REMEDIATING => 3
  | DEPLOYED => 4
  | CLOSED => 5
  | ABORTED => 5
  end.

(** The state that follows on the forward pass. *)
Definition next (s : State) : State :=
  match s with
  | OPEN => ASSESSING
  | ASSESSING => DIAGNOSING
  | DIAGNOSING => REMEDIATING
  | REMEDIATING => DEPLOYED
  | DEPLOYED => CLOSED
  | CLOSED => CLOSED
  | ABORTED => ABORTED
  end.

Definition terminal (s : State) : bool :=
  match s with
  | CLOSED | ABORTED => true
  | _ => false
  end.

(** *** Agents *)

(** Modelled from the spec: the minimal generic finding an agent degrades
    to when it cannot answer. *)
Definition degraded (role : Role) (t : Ticket) (now : nat) : Finding :=
  {| finding_role := role;
     finding_ticket_id := ticket_id t;
     summary := "no matching guidance";
     confidence := 0%Q;
     suggested_action := None;
     timestamp := now |}.

(** Only the domain agents and the frontend turn a fix template into a
    suggested action; the main and SRE agents report context. *)
Definition suggests (role : Role) : bool :=
  match role with
  | Billing | Ordering | Frontend => true
  | Chair | Main | SRE => false
  end.

(** Modelled from the spec: [Agent.analyze], absent from the sources.  The
    chair does not analyze; a role asked about a service it does not own,
    or about an error code its runbook has no entry for, degrades; the
    others answer from the entry of their runbook. *)
Definition analyze (cfg : Config) (role : Role) (t : Ticket)
    (findings_so_far : list Finding) (now : nat) : Finding :=
  match role with
  | Chair => degraded role t now
  | _ =>
      if negb (owns cfg role (ticket_service t)) then degraded role t now
      else
        match assoc (ticket_error_code t) (knowledge (runbooks cfg role)) with
        | None => degraded role t now
        | Some g =>
            {| finding_role := role;
               finding_ticket_id := ticket_id t;
               summary := guidance_text g;
               confidence := trust cfg role g;
               suggested_action :=
                 if suggests role then fix_template g else None;
               timestamp := now |}
        end
  end.

(** Modelled from the spec: [FrontendAgent.locate_defect], a lookup from
    the error code to a known source pattern. *)
Definition locate_defect (cfg : Config) (error_code : string)
    : option CodeLocation :=
  assoc error_code (defect_patterns cfg).

(** Modelled from the spec: [FrontendAgent.generate_patch]; deployment is
    simulated and the action is recorded as applied. *)
Definition generate_patch (loc : CodeLocation) : Action :=
  {| action_kind := PATCH;
     target := location_file loc;
     diff_or_description := patch_template loc;
     applied := true |}.

(** *** RCA synthesis *)

(** Modelled from the spec: the choice of the finding whose suggested
    action becomes the root cause, the most confident among those that
    suggest one; the earliest on a tie. *)
Fixpoint best_actionable (fs : list Finding) : option Finding :=
  match fs with
  | [] => None
  | f :: rest =>
      match suggested_action f, best_actionable rest with
      | None, best => best
      | Some _, None => Some f
      | Some _, Some g =>
          if Qle_bool (confidence g) (confidence f) then Some f else Some g
      end
  end.

Definition resolves (a : Action) : bool :=
  match action_kind a with
  | PATCH | DEPLOY => applied a
  | NONE => false
  end.

Definition remediation_of (acts : list Action) : string :=
  match find resolves acts with
  | Some a => diff_or_description a
  | None => "no remediation applied"
  end.

(** Modelled from the spec: [synthesize] of the RCA synthesizer, absent
    from the sources.  It reads the call and nothing else. *)
Definition synthesize (c : TriageCall) : RCAReport :=
  match best_actionable (findings c) with
  | Some f =>
      {| rca_ticket_id := call_ticket_id c;
         root_cause :=
           match suggested_action f with
           | Some a => a
           | None => "undetermined"
           end;
         contributing_findings := findings c;
         remediation_summary := remediation_of (actions c);
         generated_at := closed_at c |}
  | None =>
      {| rca_ticket_id := call_ticket_id c;
         root_cause := "undetermined";
         contributing_findings := findings c;
         remediation_summary := "call closed unresolved";
         generated_at := closed_at c |}
  end.

(** *** The chair's state machine *)

(** Everything the orchestrator owns during a run.  [stream] is the
    append-only event stream, [clock] stamps what is appended to it. *)
Record Orchestrator : Type := mkOrchestrator {
  ticket : Ticket;
  call : TriageCall;
  stream : list Event;
  clock : nat;
  report : option RCAReport
}.

Definition with_call (f : TriageCall -> TriageCall) (o : Orchestrator)
    : Orchestrator :=
  {| ticket := ticket o; call := f (call o); stream := stream o;
     clock := clock o; report := report o |}.

Definition set_state (s : State) (c : TriageCall) : TriageCall :=
  {| call_ticket_id := call_ticket_id c; state := s;
     agent_sequence := agent_sequence c; findings := findings c;
     actions := actions c; opened_at := opened_at c;
     closed_at := closed_at c |}.

Definition add_agents (roles : list Role) (c : TriageCall) : TriageCall :=
  {| call_ticket_id := call_ticket_id c; state := state c;
     agent_sequence := agent_sequence c ++ roles; findings := findings c;
     actions := actions c; opened_at := opened_at c;
     closed_at := closed_at c |}.

Definition add_finding (f : Finding) (c : TriageCall) : TriageCall :=
  {| call_ticket_id := call_ticket_id c; state := state c;
     agent_sequence := agent_sequence c; findings := findings c ++ [f];
     actions := actions c; opened_at := opened_at c;
     closed_at := closed_at c |}.

Definition add_action (a : Action) (c : TriageCall) : TriageCall :=
  {| call_ticket_id := call_ticket_id c; state := state c;
     agent_sequence := agent_sequence c; findings := findings c;
     actions := actions c ++ [a]; opened_at := opened_at c;
     closed_at := closed_at c |}.

Definition set_closed_at (now : nat) (c : TriageCall) : TriageCall :=
  {| call_ticket_id := call_ticket_id c; state := state c;
     agent_sequence := agent_sequence c; findings := findings c;
     actions := actions c; opened_at := opened_at c;
     closed_at := Some now |}.

Definition set_ticket_status (st : TicketStatus) (o : Orchestrator)
    : Orchestrator :=
  {| ticket :=
       {| ticket_id := ticket_id (ticket o);
          ticket_service := ticket_service (ticket o);
          ticket_error_code := ticket_error_code (ticket o);
          severity := severity (ticket o);
          ticket_opened_at := ticket_opened_at (ticket o);
          ticket_status := st;
          raw_payload := raw_payload (ticket o) |};
     call := call o; stream := stream o; clock := clock o;
     report := report o |}.

(** Append one event and advance the clock. *)
Definition publish (p : EventPayload) (o : Orchestrator) : Orchestrator :=
  {| ticket := ticket o; call := call o;
     stream := stream o ++ [ {| event_ticket_id := call_ticket_id (call o);
                                event_timestamp := clock o;
                                event_payload := p |} ];
     clock := S (clock o); report := report o |}.

(** Move the call to [s], publishing the transition. *)
Definition transition (s : State) (o : Orchestrator) : Orchestrator :=
  publish (Transition (state (call o)) s) (with_call (set_state s) o).

(** Modelled from the spec: one agent turn, taken while the agent-turn
    budget lasts; the finding is recorded and published. *)
Definition invoke (cfg : Config) (role : Role) (o : Orchestrator)
    : Orchestrator :=
  if List.length (findings (call o)) <? max_turns cfg then
    let f := analyze cfg role (ticket o) (findings (call o)) (clock o) in
    publish (Found f) (with_call (add_finding f) o)
  else o.

Definition invoke_all (cfg : Config) (roles : list Role) (o : Orchestrator)
    : Orchestrator :=
  fold_left (fun acc role => invoke cfg role acc) roles o.

Definition actionable (f : Finding) : bool :=
  match suggested_action f with Some _ => true | None => false end.

Definition implicates (cfg : Config) (f : Finding) : bool :=
  match suggested_action f with
  | Some a => implicates_frontend cfg a
  | None => false
  end.

(** Modelled from the spec: the chair closing the call; the ticket is
    resolved when a remedy was recorded and open otherwise, and the RCA is
    synthesized. *)
Definition close (o : Orchestrator) : Orchestrator :=
  let o1 := with_call (set_closed_at (clock o)) (transition CLOSED o) in
  let o2 :=
    set_ticket_status
      (if existsb resolves (actions (call o1)) then RESOLVED else TICKET_OPEN)
      o1 in
  {| ticket := ticket o2; call := call o2; stream := stream o2;
     clock := clock o2; report := Some (synthesize (call o2)) |}.

(** Modelled from the spec: one transition of the [TriageOrchestrator],
    absent from the sources, with the agent turns it starts.  A call with
    nothing to act on closes unresolved; a terminal call is left alone. *)
Definition step (cfg : Config) (o : Orchestrator) : Orchestrator :=
  match state (call o) with
  | OPEN =>
      invoke_all cfg [Main; SRE]
        (transition ASSESSING
           (with_call (add_agents [Main; SRE])
              (set_ticket_status IN_TRIAGE o)))
  | ASSESSING =>
      let domain := domain_agents cfg (ticket_service (ticket o)) in
      invoke_all cfg domain
        (transition DIAGNOSING (with_call (add_agents domain) o))
  | DIAGNOSING =>
      if existsb actionable (findings (call o)) then
        let o1 := transition REMEDIATING o in
        if existsb (implicates cfg) (findings (call o)) then
          invoke cfg Frontend (with_call (add_agents [Frontend]) o1)
        else o1
      else close o
  | REMEDIATING =>
      if existsb (Role_eqb Frontend) (agent_sequence (call o)) then
        match locate_defect cfg (ticket_error_code (ticket o)) with
        | Some loc =>
            let a := generate_patch loc in
            publish (Acted a)
              (with_call (add_action a) (transition DEPLOYED o))
        | None => close o
        end
      else close o
  | DEPLOYED => close o
  | CLOSED | ABORTED => o
  end.

(** Modelled from the spec: the external abort, which ends a live call in
    [ABORTED] and still publishes the closing event. *)
Definition abort (o : Orchestrator) : Orchestrator :=
  if terminal (state (call o)) then o
  else with_call (set_closed_at (clock o)) (transition ABORTED o).

Fixpoint run (cfg : Config) (fuel : nat) (o : Orchestrator) : Orchestrator :=
  match fuel with
  | 0 => o
  | S fuel' => run cfg fuel' (step cfg o)
  end.

(** The chair opens a call for a fresh ticket. *)
Definition open_call (t : Ticket) (now : nat) : Orchestrator :=
  {| ticket := t;
     call := {| call_ticket_id := ticket_id t; state := OPEN;
                agent_sequence := []; findings := []; actions := [];
                opened_at := now; closed_at := None |};
     stream := []; clock := now; report := None |}.

(** Agent turns taken so far: one finding is published per turn. *)
Definition turns (o : Orchestrator) : nat :=
  List.length (filter (fun e => match event_payload e with
                                | Found _ => true
                                | _ => false
                                end) (stream o)).

End Triage.

(** ** The HTTP contract, as predicates on response bodies *)

Module Contract.

(** The failure shape as the specification words it. *)
Definition spec_failure_shape (doc : json) : bool :=
  has_field doc "error_code" && has_field doc "message"
  && has_path doc "details" "missing_fields".

(** The failure shape the handler builds: the code sits under [error]. *)
Definition failure_shape (doc : json) : bool :=
  has_field doc "error" && has_field doc "message"
  && has_path doc "details" "missing_fields".

Definition success_shape (doc : json) : bool :=
  has_field doc "order_id".

(** [doc.details.missing_fields] *)
Definition missing_fields (doc : json) : option json :=
  match field doc "details" with
  | Some details => field details "missing_fields"
  | None => None
  end.

(** A response is the structured failure for a missing currency. *)
Definition is_billing_400 (res : Response) : Prop :=
  status res = 400 /\
  exists doc, res_body res = JsonDoc doc /\
    field doc "error" = Some (JString "BILLING_400") /\
    missing_fields doc = Some (JArray [JString "currency"]).

(** A response is a success carrying an order id. *)
Definition is_success (res : Response) : Prop :=
  status res = 200 /\
  exists doc, res_body res = JsonDoc doc /\ success_shape doc = true.

(** Every response has one of the two shapes of the specification. *)
Definition two_shapes_as_specified : Prop :=
  forall random36 request res,
    POST random36 request = Resolved res ->
    exists doc, res_body res = JsonDoc doc /\
      (spec_failure_shape doc = true \/ success_shape doc = true).

(** The handler fails exactly when the body has no [currency] field. *)
Definition fails_iff_currency_absent : Prop :=
  forall random36 request doc,
    req_body request = JsonDoc doc ->
    exists res, POST random36 request = Resolved res /\
      (has_field doc "currency" = false -> is_billing_400 res) /\
      (has_field doc "currency" = true -> is_success res).

Definition request_with (p : payload) : Request :=
  {| url := "/api/create-order"; method := "POST";
     headers := [("Content-Type", "application/json")];
     req_body := p; signal := None |}.

(** The body of a successful response. *)
Definition order_created (random36 : string) : json :=
  JObject
    [ ("success", JBool true);
      ("order_id",
        JString (String.append "ORD-" (toUpperCase (substr 2 9 random36))));
      ("message", JString "Order created successfully") ].

End Contract.

Import Contract.

(** ** The billing scenario of the demo *)

Module Demo.

Import Triage.

Definition billing_guidance : Guidance :=
  {| guidance_text := "billing rejects payment requests that carry no currency";
     fix_template :=
       Some "add the missing currency field to the order-creation request body" |}.

Definition runbook_of (role : Role) : Runbook :=
  {| agent_role := role;
     knowledge :=
       match role with
       | Billing => [("BILLING_400", billing_guidance)]
       | Main =>
           [("BILLING_400",
             {| guidance_text := "checkout orders are failing";
                fix_template := None |})]
       | SRE =>
           [("BILLING_400",
             {| guidance_text := "billing deployed a stricter schema";
                fix_template := None |})]
       | Chair | Ordering | Frontend => []
       end;
     escalation_rules := [];
     response_templates := [] |}.

Definition config : Config :=
  {| runbooks := runbook_of;
     owns := fun role service =>
       match role with
       | Main | SRE => true
       | Billing => String.eqb service "billing"
       | Ordering => String.eqb service "ordering"
       | Frontend => String.eqb service "frontend"
       | Chair => false
       end;
     domain_agents := fun service =>
       if String.eqb service "billing" then [Billing; Ordering]
       else if String.eqb service "ordering" then [Ordering]
       else [];
     trust := fun _ g =>
       match fix_template g with
       | Some _ => (9 # 10)%Q
       | None => (1 # 2)%Q
       end;
     implicates_frontend := fun a =>
       match String.index 0 "request body" a with
       | Some _ => true
       | None => false
       end;
     defect_patterns :=
       [("BILLING_400",
         {| location_file := "demo_frontend/checkout.ts";
            location_pattern := "missing field in request body";
            patch_template := "add currency INR to the body of createOrder" |})];
     max_turns := 8 |}.

Definition billing_ticket : Ticket :=
  {| ticket_id := 1;
     ticket_service := "billing";
     ticket_error_code := "BILLING_400";
     severity := "warning";
     ticket_opened_at := 0;
     ticket_status := TICKET_OPEN;
     raw_payload := [("missing_fields", "currency")] |}.

(** A ticket for an error no runbook knows. *)
Definition unknown_ticket : Ticket :=
  {| ticket_id := 2;
     ticket_service := "billing";
     ticket_error_code := "BILLING_418";
     severity := "warning";
     ticket_opened_at := 0;
     ticket_status := TICKET_OPEN;
     raw_payload := [] |}.

Definition certain_outage : FailureRule :=
  {| rule_service := "billing"; rule_kind := "outage";
     rule_error_code := "BILLING_503"; probability := 1%Q;
     rule_payload := [] |}.

Definition policy : list FailureRule :=
  [ {| rule_service := "billing"; rule_kind := "timeout";
       rule_error_code := "BILLING_504"; probability := 0%Q;
       rule_payload := [] |};
    {| rule_service := "ordering"; rule_kind := "outage";
       rule_error_code := "ORDERING_503"; probability := 1%Q;
       rule_payload := [] |};
    {| rule_service := "billing"; rule_kind := "schema_mismatch";
       rule_error_code := "BILLING_400"; probability := (1 # 4)%Q;
       rule_payload := [("missing_fields", "currency")] |};
    certain_outage ].

(** The billing call after the chair opened it, and at the end of its run. *)
Definition assessing : Orchestrator := run config 1 (open_call billing_ticket 0).

Definition closed : Orchestrator := run config 5 (open_call billing_ticket 0).

(** A fixed sequence standing in for the random source: 0, 1/4, 1/2, 3/4
    and over again. *)
Definition quarters (n : nat) : Q := (Z.of_nat (n mod 4) # 4)%Q.

End Demo.

(** ** The checkout page *)

Module Page.

(** The four [useState] cells of [CheckoutPage]. *)
Record PageState : Type := mkPage {
  loading : bool;
  error : option string;
  success : bool;
  showCode : bool
}.


Definition setLoading (b : bool) (st : PageState) : PageState :=
  {| loading := b; error := error st; success := success st;
     showCode := showCode st |}.

Definition setError (e : option string) (st : PageState) : PageState :=
  {| loading := loading st; error := e; success := success st;
     showCode := showCode st |}.

Definition setSuccess (b : bool) (st : PageState) : PageState :=
  {| loading := loading st; error := error st; success := b;
     showCode := showCode st |}.

Definition setShowCode (b : bool) (st : PageState) : PageState :=
  {| loading := loading st; error := error st; success := success st;
     showCode := b |}.

(** The literal [2499.00] as a binary64. *)
Definition amount_2499 : number :=
  S754_finite false (2499 * 2 ^ 41)%positive (-41)%Z.

Section Handlers.

(** The [createOrder] the page calls. *)
Variable createOrder : string -> number -> outcome json.

(** The text the engine gives to the [message] of an error it raised
    itself, or of an [Error] built from something that is not a string. *)
Variable engine_message : JsError -> string.

(** [err.message] *)
Definition message_of (err : JsError) : string :=
  match err with
  | Error (JString s) => s
  | _ => engine_message err
  end.

(** What the page holds while the order is in flight: the three setters
    at the head of [handleCheckout]. *)
Definition pending (st : PageState) : PageState :=
  setSuccess false (setError None (setLoading true st)).

(** [handleCheckout]; [random36] is the [Math.random().toString(36)] the
    payment intent id is cut from. *)
Definition handleCheckout (random36 : string) (st : PageState) : PageState :=
  let st1 := pending st in
  let st2 :=
    let paymentIntentId := String.append "pi_" (substr 2 9 random36) in
    let amount := amount_2499 in
    match createOrder paymentIntentId amount with
    | Resolved _ => setSuccess true st1
    | Rejected err => setError (Some (message_of err)) st1
    end in
  setLoading false st2.

End Handlers.

(** The click handler of the code toggle. *)
Definition toggleCode (st : PageState) : PageState :=
  setShowCode (negb (showCode st)) st.

(** What the page renders of its state: the conditional parts of the JSX.
    An [error] that is the empty string renders no panel. *)
Record View : Type := mkView {
  code_viewer : bool;
  toggle_says_hide : bool;
  button_disabled : bool;
  button_says_processing : bool;
  error_panel : option string;
  success_panel : bool
}.

Definition render (st : PageState) : View :=
  {| code_viewer := showCode st;
     toggle_says_hide := showCode st;
     button_disabled := loading st;
     button_says_processing := loading st;
     error_panel :=
       match error st with
       | Some text => if String.eqb text EmptyString then None else Some text
       | None => None
       end;
     success_panel := success st |}.

End Page.

(** ** Reading the handler's answers *)

Module Answer.

Definition is_lower (c : ascii) : bool :=
  (97 <=? nat_of_ascii c) && (nat_of_ascii c <=? 122).

Fixpoint no_lower (s : string) : bool :=
  match s with
  | EmptyString => true
  | String c rest => negb (is_lower c) && no_lower rest
  end.

(** [doc.order_id] when it is a string. *)
Definition order_id (doc : json) : option string :=
  match field doc "order_id" with
  | Some (JString s) => Some s
  | _ => None
  end.



(** A fetch that looks at the path, the method and the body only. *)
Definition reads_body_only (fetch : Request -> outcome Response) : Prop :=
  forall r1 r2,
    url r1 = url r2 -> method r1 = method r2 -> req_body r1 = req_body r2 ->
    fetch r1 = fetch r2.

(** Every armed timer was handed out before. *)
Definition timers_wf (ts : Checkout.Timers) : Prop :=
  forall t, In t (Checkout.armed ts) -> fst t < Checkout.next_id ts.

End Answer.

(** ** Properties of the create-order handler *)

Lemma get_not_null (doc : json) (k : string) :
  doc <> JNull -> get doc k = Resolved (field doc k).
Proof.
  destruct doc; intros Hnn; try reflexivity.
  now elim Hnn.
Qed.

Lemma Object_keys_not_null (doc : json) :
  doc <> JNull -> exists keys, Object_keys doc = Resolved keys.
Proof.
  destruct doc; intros Hnn; simpl; eauto.
  now elim Hnn.
Qed.

(** What the handler answers to a JSON body other than [null]. *)
Lemma POST_not_null (random36 : string) (request : Request) (doc : json) :
  req_body request = JsonDoc doc ->
  doc <> JNull ->
  exists keys, Object_keys doc = Resolved keys /\
    POST random36 request =
      if truthy (field doc "currency") then
        Resolved (NextResponse_json (order_created random36) None)
      else
        Resolved (NextResponse_json
          (JObject
             [ ("error", JString "BILLING_400");
               ("message", JString missing_currency_message);
               ("details",
                 JObject
                   [ ("received_fields", JArray (map JString keys));
                     ("required_fields",
                       JArray [JString "paymentIntentId"; JString "amount";
                               JString "currency"]);
                     ("missing_fields", JArray [JString "currency"]) ]) ])
          (Some 400)).
Proof.
  intros Hbody Hnn.
  destruct (Object_keys_not_null doc Hnn) as [keys Hkeys].
  exists keys. split; [exact Hkeys|].
  unfold POST, Request_json. rewrite Hbody. simpl.
  rewrite (get_not_null doc "currency" Hnn). simpl.
  destruct (truthy (field doc "currency")); simpl.
  - reflexivity.
  - rewrite Hkeys. reflexivity.
Qed.

(** A body that is no JSON, and the body [null], make the handler throw;
    nothing else does. *)
Lemma POST_rejected_inv (random36 : string) (request : Request) (e : JsError) :
  POST random36 request = Rejected e ->
  (exists text, req_body request = NotJson text) \/
  req_body request = JsonDoc JNull.
Proof.
  intros H. destruct (req_body request) as [text|doc] eqn:Hbody.
  - left. now exists text.
  - right. destruct doc; try reflexivity;
      (destruct (POST_not_null random36 request _ Hbody) as [keys [_ Heq]];
       [discriminate|]; rewrite Heq in H;
       destruct (truthy _); discriminate).
Qed.

(** C1, as amended.  Whenever the handler returns a response, its body is a
    JSON object of one of two shapes and of no other: with status 400 the
    failure, holding [error] (not [error_code]), [message] and
    [details.missing_fields] and no [order_id]; with status 200 the success,
    holding [order_id] and no [error]. *)
Theorem POST_response_shapes (random36 : string) (request : Request)
    (res : Response) :
  POST random36 request = Resolved res ->
  exists doc, res_body res = JsonDoc doc /\
    ((status res = 400 /\ failure_shape doc = true /\
      spec_failure_shape doc = false /\ success_shape doc = false)
     \/
     (status res = 200 /\ success_shape doc = true /\
      failure_shape doc = false)).
Proof.
  intros H.
  destruct (req_body request) as [text|doc] eqn:Hbody.
  - unfold POST, Request_json in H. rewrite Hbody in H. discriminate.
  - destruct (json_is_null doc) eqn:Hnull.
    + destruct doc; try discriminate.
      unfold POST, Request_json in H. rewrite Hbody in H. discriminate.
    + assert (Hnn : doc <> JNull) by (intros ->; discriminate).
      destruct (POST_not_null random36 request doc Hbody Hnn)
        as [keys [_ Heq]].
      rewrite Heq in H.
      destruct (truthy (field doc "currency"));
        injection H as <-; eexists; (split; [reflexivity|]).
      * right. repeat split; reflexivity.
      * left. repeat split; reflexivity.
Qed.

Lemma POST_response_shapes_witness :
  exists doc,
    res_body (NextResponse_json (order_created "0.4fzyo82mvyr") None)
      = JsonDoc doc /\
    ((status (NextResponse_json (order_created "0.4fzyo82mvyr") None) = 400 /\
      failure_shape doc = true /\
      spec_failure_shape doc = false /\ success_shape doc = false)
     \/
     (status (NextResponse_json (order_created "0.4fzyo82mvyr") None) = 200 /\
      success_shape doc = true /\ failure_shape doc = false)).
Proof.
  apply (POST_response_shapes "0.4fzyo82mvyr"
           (request_with (JsonDoc (JObject [("currency", JString "INR")])))).
  reflexivity.
Defined.

(** C1, as stated, fails: the failure the handler returns for the body [{}]
    has no [error_code] field, and no [order_id] either. *)
Lemma two_shapes_as_specified_fails : ~ two_shapes_as_specified.
Proof.
  intros Hspec.
  destruct (Hspec "0.4fzyo82mvyr" (request_with (JsonDoc (JObject []))) _
              eq_refl) as [doc [Hdoc [Hshape|Hshape]]];
    simpl in Hdoc; injection Hdoc as <-; discriminate.
Qed.

(** C2, as amended.  For a JSON body other than [null] the handler fails
    exactly when the body's [currency] is absent or falsy ([null], [false],
    a zero, the empty string): then it answers 400 with the code
    BILLING_400 and [details.missing_fields] equal to [["currency"]];
    otherwise it answers 200 with an [order_id]. *)
Theorem POST_fails_iff_currency_falsy (random36 : string) (request : Request)
    (doc : json) :
  req_body request = JsonDoc doc ->
  doc <> JNull ->
  exists res, POST random36 request = Resolved res /\
    (truthy (field doc "currency") = false -> is_billing_400 res) /\
    (truthy (field doc "currency") = true -> is_success res) /\
    (status res = 400 <-> truthy (field doc "currency") = false).
Proof.
  intros Hbody Hnn.
  destruct (POST_not_null random36 request doc Hbody Hnn) as [keys [_ Heq]].
  rewrite Heq.
  destruct (truthy (field doc "currency")); eexists; (split; [reflexivity|]).
  - split; [discriminate|]. split.
    + intros _. split; [reflexivity|].
      eexists. split; reflexivity.
    + simpl. split; discriminate.
  - split; [|split; [discriminate|]].
    + intros _. split; [reflexivity|].
      eexists. repeat split; reflexivity.
    + simpl. split; reflexivity.
Qed.

Lemma POST_fails_iff_currency_falsy_witness :
  exists res,
    POST "0.4fzyo82mvyr"
      (request_with (JsonDoc (JObject [("currency", JString EmptyString)])))
      = Resolved res /\
    (truthy (field (JObject [("currency", JString EmptyString)]) "currency") = false ->
       is_billing_400 res) /\
    (truthy (field (JObject [("currency", JString EmptyString)]) "currency") = true ->
       is_success res) /\
    (status res = 400 <->
       truthy (field (JObject [("currency", JString EmptyString)]) "currency") = false).
Proof.
  apply (POST_fails_iff_currency_falsy "0.4fzyo82mvyr"
           (request_with (JsonDoc (JObject [("currency", JString EmptyString)])))
           (JObject [("currency", JString EmptyString)])).
  - reflexivity.
  - discriminate.
Defined.

(** C2, as stated, fails: the body whose [currency] is the empty string has
    the field and is answered with the 400 failure. *)
Lemma fails_iff_currency_absent_fails : ~ fails_iff_currency_absent.
Proof.
  intros Hspec.
  destruct (Hspec "0.4fzyo82mvyr"
              (request_with (JsonDoc (JObject [("currency", JString EmptyString)])))
              (JObject [("currency", JString EmptyString)]) eq_refl)
    as [res [Hres [_ Hsucc]]].
  simpl in Hres. injection Hres as <-.
  destruct (Hsucc eq_refl) as [Hstatus _].
  discriminate.
Qed.

(** C3, at the failing input.  The body [null] is JSON and has no
    [currency], yet the handler does not return the failure value: reading
    [body.currency] throws. *)
Theorem POST_null_body_throws (random36 : string) :
  POST random36 (request_with (JsonDoc JNull)) = Rejected TypeError.
Proof. reflexivity. Qed.

(** C8.  When the body is not JSON, [request.json()] rejects and the
    handler rejects with the same error: it returns no response, and so no
    structured failure. *)
Theorem POST_not_json_rejects (random36 : string) (request : Request)
    (text : string) :
  req_body request = NotJson text ->
  Request_json request = Rejected SyntaxError /\
  POST random36 request = Rejected SyntaxError /\
  forall res, POST random36 request <> Resolved res.
Proof.
  intros Hbody.
  assert (Hjson : Request_json request = Rejected SyntaxError)
    by (unfold Request_json; rewrite Hbody; reflexivity).
  assert (Hpost : POST random36 request = Rejected SyntaxError)
    by (unfold POST; rewrite Hjson; reflexivity).
  repeat split; trivial.
  intros res. rewrite Hpost. discriminate.
Qed.

Lemma POST_not_json_rejects_witness :
  Request_json (request_with (NotJson "{paymentIntentId:")) =
    Rejected SyntaxError /\
  POST "0.4fzyo82mvyr" (request_with (NotJson "{paymentIntentId:")) =
    Rejected SyntaxError /\
  forall res,
    POST "0.4fzyo82mvyr" (request_with (NotJson "{paymentIntentId:")) <>
      Resolved res.
Proof.
  apply (POST_not_json_rejects "0.4fzyo82mvyr"
           (request_with (NotJson "{paymentIntentId:")) "{paymentIntentId:").
  reflexivity.
Defined.

(** ** The clients against the handler *)

(** C9.  The request of the buggy client holds [paymentIntentId] and
    [amount] only; the handler answers it with the 400 BILLING_400 failure,
    and [createOrder] throws an [Error] carrying the failure's message. *)
Theorem createOrder_buggy_always_fails (random36 paymentIntentId : string)
    (amount : number) :
  (exists res,
     POST random36
       (request_with
          (JsonDoc (JObject
             [ ("paymentIntentId", JString paymentIntentId);
               ("amount", JSON_stringify_number amount) ])))
       = Resolved res /\ is_billing_400 res) /\
  Checkout.createOrder_buggy (serve random36) paymentIntentId amount =
    Rejected (Error (JString missing_currency_message)).
Proof.
  split.
  - eexists. split; [reflexivity|].
    split; [reflexivity|].
    eexists. repeat split; reflexivity.
  - reflexivity.
Qed.

(** C10.  Both fixed clients put [currency: "INR"] in the body; the
    handler takes the success branch and [createOrder] returns the success
    JSON, which holds an [order_id]. *)
Theorem createOrder_fixed_always_succeeds (random36 paymentIntentId : string)
    (amount : number) :
  (forall ts,
     fst (Checkout.createOrder (serve random36) paymentIntentId amount ts) =
       Resolved (order_created random36)) /\
  (forall idempotencyKey,
     Checkout.createOrder_idempotent (serve random36) idempotencyKey
       paymentIntentId amount = Resolved (order_created random36)) /\
  success_shape (order_created random36) = true /\
  (exists res,
     POST random36
       (request_with
          (JsonDoc (JObject
             [ ("paymentIntentId", JString paymentIntentId);
               ("amount", JSON_stringify_number amount);
               ("currency", JString "INR") ])))
       = Resolved res /\ is_success res).
Proof.
  split; [|split; [|split]].
  - intros ts. reflexivity.
  - intros key. reflexivity.
  - reflexivity.
  - eexists. split; [reflexivity|].
    split; [reflexivity|].
    eexists. split; reflexivity.
Qed.

(** The fixed client leaves its abort timer disarmed, however the fetch
    ends. *)
Lemma createOrder_disarms_timer (fetch : Request -> outcome Response)
    (paymentIntentId : string) (amount : number) (ts : Checkout.Timers) :
  Checkout.armed (snd (Checkout.createOrder fetch paymentIntentId amount ts)) =
  filter (fun t => negb (Nat.eqb (fst t) (Checkout.next_id ts)))
         (Checkout.armed ts).
Proof.
  unfold Checkout.createOrder. simpl.
  rewrite Nat.eqb_refl. reflexivity.
Qed.

(** ** Failure injection *)

Import Triage.

Lemma triggers_never (r : FailureRule) (u : Q) :
  (probability r == 0)%Q -> (0 <= u)%Q -> triggers r u = false.
Proof.
  intros Hp Hu. unfold triggers.
  assert (H : Qle_bool (probability r) u = true).
  { apply Qle_bool_iff. rewrite Hp. exact Hu. }
  rewrite H. reflexivity.
Qed.

Lemma triggers_always (r : FailureRule) (u : Q) :
  (probability r == 1)%Q -> (u < 1)%Q -> triggers r u = true.
Proof.
  intros Hp Hu. unfold triggers.
  destruct (Qle_bool (probability r) u) eqn:Hle; [|reflexivity].
  apply Qle_bool_iff in Hle. rewrite Hp in Hle.
  exfalso. exact (Qlt_not_le _ _ Hu Hle).
Qed.

(** The rule [find] returns from the draws is the first that triggers. *)
Lemma find_draw_all_some (uniform : nat -> Q) (rs : list FailureRule) :
  forall (n : nat) (r : FailureRule) (u : Q),
    find (fun d => triggers (fst d) (snd d)) (draw_all uniform rs n)
      = Some (r, u) ->
    exists before after,
      rs = before ++ r :: after /\
      u = uniform (n + List.length before) /\
      triggers r u = true /\
      forall j r', nth_error before j = Some r' ->
        triggers r' (uniform (n + j)) = false.
Proof.
  induction rs as [|r0 rest IH]; intros n r u Hfind; simpl in Hfind.
  - discriminate.
  - destruct (triggers r0 (uniform n)) eqn:Htrig.
    + injection Hfind as <- <-.
      exists [], rest. simpl. rewrite Nat.add_0_r.
      repeat split; trivial.
      intros j r' Hj. destruct j; discriminate.
    + destruct (IH (S n) r u Hfind) as [before [after [Hrs [Hu [Hr Hbefore]]]]].
      exists (r0 :: before), after.
      split; [simpl; now rewrite Hrs|].
      split; [simpl; now rewrite Nat.add_succ_r|].
      split; [exact Hr|].
      intros [|j] r' Hj; simpl in Hj.
      * injection Hj as <-. rewrite Nat.add_0_r. exact Htrig.
      * rewrite Nat.add_succ_r. now apply Hbefore.
Qed.

Lemma find_draw_all_none (uniform : nat -> Q) (rs : list FailureRule) :
  forall (n : nat),
    find (fun d => triggers (fst d) (snd d)) (draw_all uniform rs n) = None ->
    forall j r', nth_error rs j = Some r' ->
      triggers r' (uniform (n + j)) = false.
Proof.
  induction rs as [|r0 rest IH]; intros n Hfind j r' Hj.
  - destruct j; discriminate.
  - simpl in Hfind.
    destruct (triggers r0 (uniform n)) eqn:Htrig; [discriminate|].
    destruct j as [|j]; simpl in Hj.
    + injection Hj as <-. rewrite Nat.add_0_r. exact Htrig.
    + rewrite Nat.add_succ_r. now apply (IH (S n)).
Qed.

Lemma draw_all_length (uniform : nat -> Q) (rs : list FailureRule) (n : nat) :
  List.length (draw_all uniform rs n) = List.length rs.
Proof.
  revert n. induction rs as [|r rest IH]; intros n; simpl; [reflexivity|].
  now rewrite IH.
Qed.

Lemma applicable_In (rules : list FailureRule) (service : string)
    (r : FailureRule) :
  In r (applicable rules service) <->
  In r rules /\ rule_service r = service.
Proof.
  unfold applicable. rewrite filter_In.
  now rewrite String.eqb_eq.
Qed.

(** C5.  With draws in [0, 1): a rule of probability 0 triggers on no draw
    and is never what [sample] returns; a rule of probability 1 triggers on
    every draw, so a service that has one never gets the success path; and
    what [sample] returns is the first rule of the service, in list order,
    that triggered on its own draw, every rule of the service before it
    having failed to trigger on its own. *)
Theorem sample_never_always_first (uniform : nat -> Q)
    (rules : list FailureRule) (service : string) (n : nat) :
  (forall k, (0 <= uniform k)%Q /\ (uniform k < 1)%Q) ->
  (forall r k, (probability r == 0)%Q -> triggers r (uniform k) = false) /\
  (forall r, fst (sample uniform rules service n) = Some r ->
             ~ (probability r == 0)%Q) /\
  (forall r k, (probability r == 1)%Q -> triggers r (uniform k) = true) /\
  (forall r, In r rules -> rule_service r = service ->
             (probability r == 1)%Q ->
             fst (sample uniform rules service n) <> None) /\
  (forall r, fst (sample uniform rules service n) = Some r ->
     exists before after,
       applicable rules service = before ++ r :: after /\
       triggers r (uniform (n + List.length before)) = true /\
       forall j r', nth_error before j = Some r' ->
         triggers r' (uniform (n + j)) = false) /\
  (fst (sample uniform rules service n) = None ->
     forall j r', nth_error (applicable rules service) j = Some r' ->
       triggers r' (uniform (n + j)) = false) /\
  snd (sample uniform rules service n) =
    n + List.length (applicable rules service).
Proof.
  intros Hrange.
  assert (Hfirst : forall r, fst (sample uniform rules service n) = Some r ->
     exists before after,
       applicable rules service = before ++ r :: after /\
       triggers r (uniform (n + List.length before)) = true /\
       forall j r', nth_error before j = Some r' ->
         triggers r' (uniform (n + j)) = false).
  { intros r Hs. unfold sample in Hs. simpl in Hs.
    destruct (find _ (draw_all uniform (applicable rules service) n))
      as [[r0 u]|] eqn:Hfind; [|discriminate].
    simpl in Hs. injection Hs as ->.
    destruct (find_draw_all_some _ _ _ _ _ Hfind)
      as [before [after [Hrs [Hu [Hr Hbefore]]]]].
    exists before, after. rewrite <- Hu. auto. }
  assert (Hnone : fst (sample uniform rules service n) = None ->
     forall j r', nth_error (applicable rules service) j = Some r' ->
       triggers r' (uniform (n + j)) = false).
  { intros Hs. unfold sample in Hs. simpl in Hs.
    destruct (find _ (draw_all uniform (applicable rules service) n))
      as [[r0 u]|] eqn:Hfind; [discriminate|].
    now apply find_draw_all_none. }
  split; [|split; [|split; [|split; [|split; [|split]]]]].
  - intros r k Hp. apply triggers_never; [exact Hp | apply Hrange].
  - intros r Hs Hp.
    destruct (Hfirst r Hs) as [before [after [_ [Hr _]]]].
    rewrite (triggers_never r _ Hp) in Hr; [discriminate | apply Hrange].
  - intros r k Hp. apply triggers_always; [exact Hp | apply Hrange].
  - intros r Hin Hsvc Hp Hs.
    assert (Happ : In r (applicable rules service))
      by (apply applicable_In; auto).
    destruct (In_nth_error _ _ Happ) as [j Hj].
    specialize (Hnone Hs j r Hj).
    rewrite (triggers_always r _ Hp) in Hnone;
      [discriminate | apply Hrange].
  - exact Hfirst.
  - exact Hnone.
  - unfold sample. simpl. now rewrite draw_all_length.
Qed.

Lemma quarters_range (k : nat) :
  (0 <= Demo.quarters k)%Q /\ (Demo.quarters k < 1)%Q.
Proof.
  pose proof (Nat.mod_upper_bound k 4 ltac:(discriminate)) as Hlt.
  unfold Demo.quarters, Qle, Qlt. cbn [Qnum Qden]. lia.
Qed.

Lemma sample_never_always_first_witness :
  (forall k, (0 <= Demo.quarters k)%Q /\ (Demo.quarters k < 1)%Q) /\
  fst (sample Demo.quarters Demo.policy "billing" 0) <> None /\
  snd (sample Demo.quarters Demo.policy "billing" 0) =
    0 + List.length (applicable Demo.policy "billing").
Proof.
  split; [exact quarters_range|].
  destruct (sample_never_always_first Demo.quarters Demo.policy "billing" 0
              quarters_range) as [_ [_ [_ [Halways [_ [_ Hdraws]]]]]].
  split; [|exact Hdraws].
  apply (Halways Demo.certain_outage).
  - simpl. auto.
  - reflexivity.
  - reflexivity.
Defined.

(** On the demo policy the first two billing rules miss their draws (0 is
    not below 0, 1/4 is not below 1/4) and the certain outage is returned. *)
Example sample_demo :
  option_map rule_error_code
    (fst (sample Demo.quarters Demo.policy "billing" 0)) = Some "BILLING_503"
  /\ snd (sample Demo.quarters Demo.policy "billing" 0) = 3.
Proof. split; reflexivity. Qed.

(** ** RCA synthesis *)





(** The billing scenario end to end: the call closes after a patch, the
    ticket is resolved and the root cause names the missing currency. *)
Example billing_scenario :
  let o := run Demo.config 5 (open_call Demo.billing_ticket 0) in
  state (call o) = CLOSED /\
  ticket_status (ticket o) = RESOLVED /\
  map finding_role (findings (call o))
    = [Main; SRE; Billing; Ordering; Frontend] /\
  map action_kind (actions (call o)) = [PATCH] /\
  option_map root_cause (report o) =
    Some "add the missing currency field to the order-creation request body".
Proof. vm_compute. repeat split. Qed.

(** ** The chair's state machine *)

Lemma invoke_state (cfg : Config) (role : Role) (o : Orchestrator) :
  state (call (invoke cfg role o)) = state (call o).
Proof. unfold invoke. destruct (_ <? _); reflexivity. Qed.

Lemma invoke_all_state (cfg : Config) (roles : list Role) :
  forall o, state (call (invoke_all cfg roles o)) = state (call o).
Proof.
  induction roles as [|role rest IH]; intros o; [reflexivity|].
  change (invoke_all cfg (role :: rest) o)
    with (invoke_all cfg rest (invoke cfg role o)).
  rewrite IH. apply invoke_state.
Qed.

Lemma close_state (o : Orchestrator) : state (call (close o)) = CLOSED.
Proof. reflexivity. Qed.

(** Where one step takes a live call: to the next state of the forward
    pass, or straight to [CLOSED]. *)
Lemma step_state (cfg : Config) (o : Orchestrator) :
  terminal (state (call o)) = false ->
  state (call (step cfg o)) = next (state (call o)) \/
  state (call (step cfg o)) = CLOSED.
Proof.
  intros Hlive. unfold step.
  destruct (state (call o)) eqn:Hs; try discriminate; cbv beta iota zeta.
  - left. rewrite invoke_all_state. reflexivity.
  - left. rewrite invoke_all_state. reflexivity.
  - destruct (existsb actionable _).
    + left. destruct (existsb (implicates cfg) _);
        [rewrite invoke_state|]; reflexivity.
    + right. apply close_state.
  - destruct (existsb (Role_eqb Frontend) _);
      [destruct (locate_defect cfg _)|];
      (left; reflexivity) || (right; apply close_state).
  - right. apply close_state.
Qed.

Lemma step_advances (cfg : Config) (o : Orchestrator) :
  terminal (state (call o)) = false ->
  rank (state (call o)) < rank (state (call (step cfg o))).
Proof.
  intros Hlive.
  destruct (step_state cfg o Hlive) as [H|H]; rewrite H;
    destruct (state (call o)); try discriminate; simpl; lia.
Qed.

Lemma step_terminal (cfg : Config) (o : Orchestrator) :
  terminal (state (call o)) = true -> step cfg o = o.
Proof.
  intros Hterm. unfold step.
  destruct (state (call o)); try discriminate; reflexivity.
Qed.

Lemma run_terminal (cfg : Config) (fuel : nat) (o : Orchestrator) :
  terminal (state (call o)) = true -> run cfg fuel o = o.
Proof.
  intros Hterm. induction fuel as [|fuel IH]; simpl; [reflexivity|].
  now rewrite (step_terminal cfg o Hterm).
Qed.

Lemma abort_state (o : Orchestrator) :
  terminal (state (call o)) = false -> state (call (abort o)) = ABORTED.
Proof. intros Hlive. unfold abort. rewrite Hlive. reflexivity. Qed.

Lemma rank_terminal (s : State) : terminal s = true <-> rank s = 5.
Proof. destruct s; simpl; split; intros H; try discriminate; reflexivity. Qed.

Lemma rank_le_5 (s : State) : rank s <= 5.
Proof. destruct s; simpl; lia. Qed.

(** Every run ends: five steps take any call to a terminal state. *)
Lemma run_reaches_terminal (cfg : Config) (fuel : nat) :
  forall o, 5 <= rank (state (call o)) + fuel ->
            terminal (state (call (run cfg fuel o))) = true.
Proof.
  induction fuel as [|fuel IH]; intros o Hrank; simpl.
  - apply rank_terminal. pose proof (rank_le_5 (state (call o))). lia.
  - destruct (terminal (state (call o))) eqn:Hterm.
    + rewrite (step_terminal cfg o Hterm).
      apply IH. apply rank_terminal in Hterm. lia.
    + apply IH. pose proof (step_advances cfg o Hterm). lia.
Qed.

(** C4.  A step never moves a call backward on
    OPEN, ASSESSING, DIAGNOSING, REMEDIATING, DEPLOYED, CLOSED: a live call
    moves strictly forward, to the next state or straight to CLOSED, and an
    abort moves it to ABORTED.  A call in CLOSED or ABORTED is left as it
    is by every further step and by an abort, so no agent takes another
    turn and nothing more is published for it. *)
Theorem orchestrator_monotonic (cfg : Config) (o : Orchestrator) :
  rank (state (call o)) <= rank (state (call (step cfg o))) /\
  rank (state (call o)) <= rank (state (call (abort o))) /\
  (terminal (state (call o)) = false ->
     rank (state (call o)) < rank (state (call (step cfg o))) /\
     (state (call (step cfg o)) = next (state (call o)) \/
      state (call (step cfg o)) = CLOSED) /\
     state (call (abort o)) = ABORTED) /\
  (terminal (state (call o)) = true ->
     abort o = o /\
     forall fuel,
       run cfg fuel o = o /\
       findings (call (run cfg fuel o)) = findings (call o) /\
       turns (run cfg fuel o) = turns o /\
       stream (run cfg fuel o) = stream o).
Proof.
  destruct (terminal (state (call o))) eqn:Hterm.
  - split; [rewrite (step_terminal cfg o Hterm); lia|].
    split; [unfold abort; rewrite Hterm; lia|].
    split; [discriminate|]. intros _.
    split; [unfold abort; now rewrite Hterm|].
    intros fuel. rewrite (run_terminal cfg fuel o Hterm). auto.
  - pose proof (step_advances cfg o Hterm) as Hadv.
    split; [lia|].
    split.
    + rewrite (abort_state o Hterm). apply rank_le_5.
    + split; [|discriminate]. intros _.
      split; [exact Hadv|].
      split; [exact (step_state cfg o Hterm) | exact (abort_state o Hterm)].
Qed.

Lemma orchestrator_monotonic_witness :
  abort (run Demo.config 5 (open_call Demo.billing_ticket 0))
    = run Demo.config 5 (open_call Demo.billing_ticket 0) /\
  forall fuel,
    run Demo.config fuel (run Demo.config 5 (open_call Demo.billing_ticket 0))
      = run Demo.config 5 (open_call Demo.billing_ticket 0) /\
    findings (call (run Demo.config fuel
                      (run Demo.config 5 (open_call Demo.billing_ticket 0))))
      = findings (call (run Demo.config 5 (open_call Demo.billing_ticket 0))) /\
    turns (run Demo.config fuel
             (run Demo.config 5 (open_call Demo.billing_ticket 0)))
      = turns (run Demo.config 5 (open_call Demo.billing_ticket 0)) /\
    stream (run Demo.config fuel
              (run Demo.config 5 (open_call Demo.billing_ticket 0)))
      = stream (run Demo.config 5 (open_call Demo.billing_ticket 0)).
Proof.
  apply (orchestrator_monotonic Demo.config
           (run Demo.config 5 (open_call Demo.billing_ticket 0))).
  reflexivity.
Defined.

(** ** Agents that cannot answer *)

Lemma analyze_degrades (cfg : Config) (role : Role) (t : Ticket)
    (findings_so_far : list Finding) (now : nat) :
  assoc (ticket_error_code t) (knowledge (runbooks cfg role)) = None \/
  owns cfg role (ticket_service t) = false ->
  analyze cfg role t findings_so_far now = degraded role t now.
Proof.
  intros [Hknow|Hown]; unfold analyze.
  - rewrite Hknow. destruct role; try reflexivity;
      destruct (owns cfg _ _); reflexivity.
  - rewrite Hown. destruct role; reflexivity.
Qed.

(** C7.  An agent asked about an error code its runbook has no entry for,
    or about a ticket of a service it does not own, returns a finding of
    confidence 0 without a suggested action.  Its turn leaves the call in
    the state it was in, with that finding recorded when the budget allows
    a turn, and the step of a live call still moves it strictly forward. *)
Theorem agent_degrades_call_advances (cfg : Config) (role : Role)
    (o : Orchestrator) :
  assoc (ticket_error_code (ticket o)) (knowledge (runbooks cfg role)) = None \/
  owns cfg role (ticket_service (ticket o)) = false ->
  confidence (analyze cfg role (ticket o) (findings (call o)) (clock o))
    = 0%Q /\
  suggested_action (analyze cfg role (ticket o) (findings (call o)) (clock o))
    = None /\
  state (call (invoke cfg role o)) = state (call o) /\
  (List.length (findings (call o)) < max_turns cfg ->
     findings (call (invoke cfg role o)) =
       findings (call o) ++ [degraded role (ticket o) (clock o)]) /\
  (terminal (state (call o)) = false ->
     rank (state (call o)) < rank (state (call (step cfg o))) /\
     state (call (step cfg o)) <> ABORTED).
Proof.
  intros Hcannot.
  rewrite (analyze_degrades cfg role (ticket o) _ _ Hcannot).
  split; [reflexivity|]. split; [reflexivity|].
  split; [apply invoke_state|]. split.
  - intros Hbudget. unfold invoke.
    apply Nat.ltb_lt in Hbudget. rewrite Hbudget. simpl.
    now rewrite (analyze_degrades cfg role (ticket o) _ _ Hcannot).
  - intros Hlive. split; [now apply step_advances|].
    destruct (step_state cfg o Hlive) as [H|H]; rewrite H;
      destruct (state (call o)); discriminate.
Qed.

Lemma agent_degrades_call_advances_witness :
  confidence (analyze Demo.config Ordering (ticket Demo.assessing)
                (findings (call Demo.assessing)) (clock Demo.assessing))
    = 0%Q /\
  suggested_action (analyze Demo.config Ordering (ticket Demo.assessing)
                      (findings (call Demo.assessing)) (clock Demo.assessing))
    = None /\
  state (call (invoke Demo.config Ordering Demo.assessing))
    = state (call Demo.assessing) /\
  (List.length (findings (call Demo.assessing)) < max_turns Demo.config ->
     findings (call (invoke Demo.config Ordering Demo.assessing)) =
       findings (call Demo.assessing)
         ++ [degraded Ordering (ticket Demo.assessing) (clock Demo.assessing)]) /\
  (terminal (state (call Demo.assessing)) = false ->
     rank (state (call Demo.assessing))
       < rank (state (call (step Demo.config Demo.assessing))) /\
     state (call (step Demo.config Demo.assessing)) <> ABORTED).
Proof.
  apply (agent_degrades_call_advances Demo.config Ordering Demo.assessing).
  left. reflexivity.
Defined.

(** An error code no runbook knows: every agent degrades, and the call
    still runs to CLOSED, unresolved, with an undetermined root cause. *)
Example unknown_error_scenario :
  state (call (run Demo.config 5 (open_call Demo.unknown_ticket 0))) = CLOSED /\
  map (fun f => Qeq_bool (confidence f) 0)
      (findings (call (run Demo.config 5 (open_call Demo.unknown_ticket 0))))
    = [true; true; true; true] /\
  ticket_status (ticket (run Demo.config 5 (open_call Demo.unknown_ticket 0)))
    = TICKET_OPEN /\
  option_map root_cause
      (report (run Demo.config 5 (open_call Demo.unknown_ticket 0)))
    = Some "undetermined".
Proof. vm_compute. repeat split. Qed.

(** ** More on the create-order handler *)

Lemma POST_resolved_inv (random36 : string) (request : Request)
    (res : Response) :
  POST random36 request = Resolved res ->
  exists doc, req_body request = JsonDoc doc /\ doc <> JNull.
Proof.
  intros Hres.
  destruct (req_body request) as [text|doc] eqn:Hbody.
  - unfold POST, Request_json in Hres. rewrite Hbody in Hres. discriminate.
  - exists doc. split; [reflexivity|]. intros ->.
    unfold POST, Request_json in Hres. rewrite Hbody in Hres. discriminate.
Qed.

Lemma POST_rejected_cases (random36 : string) (request : Request)
    (e : JsError) :
  POST random36 request = Rejected e ->
  (e = SyntaxError /\ exists text, req_body request = NotJson text) \/
  (e = TypeError /\ req_body request = JsonDoc JNull).
Proof.
  intros He.
  destruct (POST_rejected_inv random36 request e He) as [[text Hbody]|Hbody];
    unfold POST, Request_json in He; rewrite Hbody in He; simpl in He;
    injection He as <-.
  - left. split; eauto.
  - right. split; eauto.
Qed.

(** The handler answers exactly the JSON bodies other than [null]; it
    throws a SyntaxError on a body that is not JSON, a TypeError on [null],
    and nothing else. *)
Theorem POST_resolves_iff (random36 : string) (request : Request) :
  ((exists res, POST random36 request = Resolved res) <->
   (exists doc, req_body request = JsonDoc doc /\ doc <> JNull)) /\
  (forall e, POST random36 request = Rejected e ->
     (e = SyntaxError /\ exists text, req_body request = NotJson text) \/
     (e = TypeError /\ req_body request = JsonDoc JNull)).
Proof.
  split; [split|].
  - intros [res Hres]. exact (POST_resolved_inv _ _ _ Hres).
  - intros [doc [Hbody Hnn]].
    destruct (POST_not_null random36 request doc Hbody Hnn) as [keys [_ Heq]].
    rewrite Heq. destruct (truthy _); eexists; reflexivity.
  - apply POST_rejected_cases.
Qed.

Lemma substring_length (s : string) :
  forall n m,
    String.length (String.substring n m s) = Nat.min m (String.length s - n).
Proof.
  induction s as [|c rest IH]; intros n m.
  - destruct n, m; reflexivity.
  - destruct n as [|n].
    + destruct m as [|m]; simpl; [reflexivity|].
      rewrite IH, Nat.sub_0_r. reflexivity.
    + simpl. destruct m; apply IH.
Qed.

Lemma toUpperCase_length (s : string) :
  String.length (toUpperCase s) = String.length s.
Proof. induction s as [|c rest IH]; simpl; congruence. Qed.

Lemma upper_ascii_not_lower (c : ascii) :
  Answer.is_lower (upper_ascii c) = false.
Proof.
  unfold upper_ascii, Answer.is_lower.
  destruct ((97 <=? nat_of_ascii c) && (nat_of_ascii c <=? 122)) eqn:Hlow.
  - apply andb_true_iff in Hlow. destruct Hlow as [Hlo Hhi].
    apply Nat.leb_le in Hlo, Hhi.
    rewrite nat_ascii_embedding by lia.
    apply andb_false_iff. left. apply Nat.leb_gt. lia.
  - exact Hlow.
Qed.

Lemma toUpperCase_no_lower (s : string) :
  Answer.no_lower (toUpperCase s) = true.
Proof.
  induction s as [|c rest IH]; simpl; [reflexivity|].
  now rewrite upper_ascii_not_lower, IH.
Qed.

Lemma truthy_field_not_null (doc : json) (k : string) :
  truthy (field doc k) = true -> doc <> JNull.
Proof. intros H ->. discriminate. Qed.

(** The order id of a success is [ORD-] followed by at most nine
    characters cut from the draw after its first two, none of them a
    lowercase letter; a draw of two characters or fewer (the draw 0 renders
    as the single character 0) leaves the bare prefix. *)
Theorem order_id_format (random36 : string) (request : Request) (doc : json) :
  req_body request = JsonDoc doc ->
  truthy (field doc "currency") = true ->
  exists res body id,
    POST random36 request = Resolved res /\
    res_body res = JsonDoc body /\
    Answer.order_id body = Some id /\
    String.prefix "ORD-" id = true /\
    String.length id = 4 + Nat.min 9 (String.length random36 - 2) /\
    Answer.no_lower id = true /\
    (String.length random36 <= 2 -> id = "ORD-").
Proof.
  intros Hbody Htruthy.
  destruct (POST_not_null random36 request doc Hbody
              (truthy_field_not_null _ _ Htruthy)) as [keys [_ Heq]].
  rewrite Htruthy in Heq.
  eexists. eexists. eexists.
  split; [exact Heq|]. split; [reflexivity|]. split; [reflexivity|].
  split; [simpl; destruct (toUpperCase _); reflexivity|].
  assert (Hlen : String.length (toUpperCase (substr 2 9 random36))
                 = Nat.min 9 (String.length random36 - 2))
    by (rewrite toUpperCase_length; apply substring_length).
  split; [simpl; now rewrite Hlen|].
  split; [simpl; apply toUpperCase_no_lower|].
  intros Hshort.
  assert (Hzero : String.length (toUpperCase (substr 2 9 random36)) = 0)
    by lia.
  destruct (toUpperCase (substr 2 9 random36)) as [|c rest];
    [reflexivity | discriminate].
Qed.

Lemma order_id_format_witness :
  exists res body id,
    POST "0.k3j"
      (request_with (JsonDoc (JObject [("currency", JString "INR")])))
      = Resolved res /\
    res_body res = JsonDoc body /\
    Answer.order_id body = Some id /\
    String.prefix "ORD-" id = true /\
    String.length id = 4 + Nat.min 9 (String.length "0.k3j" - 2) /\
    Answer.no_lower id = true /\
    (String.length "0.k3j" <= 2 -> id = "ORD-").
Proof.
  apply (order_id_format "0.k3j"
           (request_with (JsonDoc (JObject [("currency", JString "INR")])))
           (JObject [("currency", JString "INR")])); reflexivity.
Defined.

Example order_id_demo :
  Answer.order_id (order_created "0.4fzyo82mvyr") = Some "ORD-4FZYO82MV" /\
  Answer.order_id (order_created "0") = Some "ORD-".
Proof. split; reflexivity. Qed.




Example received_fields_demo :
  Object_keys (JArray [JString "INR"; JNull]) = Resolved ["0"; "1"] /\
  Object_keys (JString "INR") = Resolved ["0"; "1"; "2"] /\
  Object_keys (JObject [("amount", JNull); ("paymentIntentId", JNull)])
    = Resolved ["amount"; "paymentIntentId"].
Proof. repeat split. Qed.

Lemma POST_same_body (random36 : string) (r1 r2 : Request) :
  req_body r1 = req_body r2 -> POST random36 r1 = POST random36 r2.
Proof. intros Hsame. unfold POST, Request_json. now rewrite Hsame. Qed.

Lemma serve_reads_body_only (random36 : string) :
  Answer.reads_body_only (serve random36).
Proof.
  intros r1 r2 Hurl Hmethod Hbody. unfold serve.
  now rewrite Hurl, Hmethod, (POST_same_body random36 r1 r2 Hbody).
Qed.

(** The handler reads nothing of a request but its body: two requests with
    the same body get the same answer under the same draw, whatever their
    headers, and a failure or a throw does not depend on the draw either. *)
Theorem POST_reads_body_only (rnd1 rnd2 : string) (r1 r2 : Request) :
  req_body r1 = req_body r2 ->
  POST rnd1 r1 = POST rnd1 r2 /\
  (forall res, POST rnd1 r1 = Resolved res -> status res = 400 ->
               POST rnd2 r2 = Resolved res) /\
  (forall e, POST rnd1 r1 = Rejected e -> POST rnd2 r2 = Rejected e).
Proof.
  intros Hsame.
  pose proof (fun rnd => POST_same_body rnd r1 r2 Hsame) as Hpost.
  split; [apply Hpost|]. split.
  - intros res Hres Hstatus. rewrite Hpost in Hres.
    destruct (POST_resolved_inv rnd1 r2 res Hres) as [doc [Hbody Hnn]].
    destruct (POST_not_null rnd1 r2 doc Hbody Hnn) as [keys [Hkeys Heq1]].
    destruct (POST_not_null rnd2 r2 doc Hbody Hnn) as [keys' [Hkeys' Heq2]].
    assert (keys' = keys) by congruence. subst keys'.
    rewrite Heq2. rewrite Heq1 in Hres.
    destruct (truthy (field doc "currency")).
    + injection Hres as <-. discriminate.
    + exact Hres.
  - intros e He. rewrite Hpost in He.
    destruct (POST_rejected_cases rnd1 r2 e He)
      as [[-> [text Hbody]]|[-> Hbody]];
      unfold POST, Request_json; rewrite Hbody; reflexivity.
Qed.

Lemma POST_reads_body_only_witness :
  POST "0.k3j" (request_with (JsonDoc (JObject [])))
    = POST "0.k3j"
        {| url := "/elsewhere"; method := "PUT";
           headers := [("Idempotency-Key", "k")];
           req_body := JsonDoc (JObject []); signal := Some 7 |} /\
  (forall res,
     POST "0.k3j" (request_with (JsonDoc (JObject []))) = Resolved res ->
     status res = 400 ->
     POST "0.zzz"
        {| url := "/elsewhere"; method := "PUT";
           headers := [("Idempotency-Key", "k")];
           req_body := JsonDoc (JObject []); signal := Some 7 |}
       = Resolved res) /\
  (forall e,
     POST "0.k3j" (request_with (JsonDoc (JObject []))) = Rejected e ->
     POST "0.zzz"
        {| url := "/elsewhere"; method := "PUT";
           headers := [("Idempotency-Key", "k")];
           req_body := JsonDoc (JObject []); signal := Some 7 |}
       = Rejected e).
Proof.
  apply (POST_reads_body_only "0.k3j" "0.zzz"
           (request_with (JsonDoc (JObject [])))
           {| url := "/elsewhere"; method := "PUT";
              headers := [("Idempotency-Key", "k")];
              req_body := JsonDoc (JObject []); signal := Some 7 |}).
  reflexivity.
Defined.

(** ** More on the clients *)

(** The idempotency key of the Next.js snippet changes nothing at the
    handler: every key gets the same answer, and a repeat under the same
    key gets the same order back only when the two draws agree on the
    characters the order id is cut from. *)
Theorem idempotency_key_ignored (rnd1 rnd2 key1 key2 paymentIntentId : string)
    (amount : number) :
  Checkout.createOrder_idempotent (serve rnd1) key1 paymentIntentId amount =
    Checkout.createOrder_idempotent (serve rnd1) key2 paymentIntentId amount /\
  (Checkout.createOrder_idempotent (serve rnd1) key1 paymentIntentId amount =
     Checkout.createOrder_idempotent (serve rnd2) key1 paymentIntentId amount
   <-> toUpperCase (substr 2 9 rnd1) = toUpperCase (substr 2 9 rnd2)).
Proof.
  split; [reflexivity|].
  change (Checkout.createOrder_idempotent (serve rnd1) key1 paymentIntentId
            amount) with (Resolved (A := json) (order_created rnd1)).
  change (Checkout.createOrder_idempotent (serve rnd2) key1 paymentIntentId
            amount) with (Resolved (A := json) (order_created rnd2)).
  unfold order_created. split.
  - intros H. now injection H.
  - intros H. now rewrite H.
Qed.

Lemma Response_json_not_json (res : Response) (text : string) :
  res_body res = NotJson text -> Response_json res = Rejected SyntaxError.
Proof. intros H. unfold Response_json. now rewrite H. Qed.

(** The error path of the page's client, for a response that is not ok:
    a body that is not JSON throws the SyntaxError of [res.json()], the
    body [null] a TypeError, a body with a truthy [message] an [Error]
    carrying it, and any other body the [Error] "Order failed". *)
Theorem createOrder_buggy_error_paths (res : Response)
    (paymentIntentId : string) (amount : number) :
  ok res = false ->
  (forall text, res_body res = NotJson text ->
     Checkout.createOrder_buggy (fun _ => Resolved res) paymentIntentId amount
       = Rejected SyntaxError) /\
  (res_body res = JsonDoc JNull ->
     Checkout.createOrder_buggy (fun _ => Resolved res) paymentIntentId amount
       = Rejected TypeError) /\
  (forall doc m, res_body res = JsonDoc doc -> field doc "message" = Some m ->
     truthy (Some m) = true ->
     Checkout.createOrder_buggy (fun _ => Resolved res) paymentIntentId amount
       = Rejected (Error m)) /\
  (forall doc, res_body res = JsonDoc doc -> doc <> JNull ->
     truthy (field doc "message") = false ->
     Checkout.createOrder_buggy (fun _ => Resolved res) paymentIntentId amount
       = Rejected (Error (JString "Order failed"))).
Proof.
  intros Hok. unfold Checkout.createOrder_buggy. simpl. rewrite Hok. simpl.
  unfold Response_json.
  split; [|split; [|split]].
  - intros text Hbody. rewrite Hbody. reflexivity.
  - intros Hbody. rewrite Hbody. reflexivity.
  - intros doc m Hbody Hm Htruthy. rewrite Hbody. simpl.
    assert (Hnn : doc <> JNull) by (intros ->; discriminate).
    rewrite (get_not_null doc "message" Hnn), Hm. simpl.
    unfold or_else. now rewrite Htruthy.
  - intros doc Hbody Hnn Hfalsy. rewrite Hbody. simpl.
    rewrite (get_not_null doc "message" Hnn). simpl.
    unfold or_else. destruct (field doc "message") as [m|]; [|reflexivity].
    now rewrite Hfalsy.
Qed.

Lemma createOrder_buggy_error_paths_witness :
  (forall text,
     res_body {| status := 502; res_body := NotJson "Bad Gateway" |}
       = NotJson text ->
     Checkout.createOrder_buggy
       (fun _ => Resolved {| status := 502; res_body := NotJson "Bad Gateway" |})
       "pi_1" Page.amount_2499 = Rejected SyntaxError) /\
  Checkout.createOrder_buggy
    (fun _ => Resolved {| status := 502; res_body := NotJson "Bad Gateway" |})
    "pi_1" Page.amount_2499 = Rejected SyntaxError.
Proof.
  pose proof (createOrder_buggy_error_paths
                {| status := 502; res_body := NotJson "Bad Gateway" |}
                "pi_1" Page.amount_2499 eq_refl) as [Hnot_json _].
  split; [exact Hnot_json|].
  exact (Hnot_json "Bad Gateway" eq_refl).
Defined.




(** The two fixed clients are one client to any server that looks at the
    path, the method and the body of a request: the idempotency key and the
    abort signal are all that tells them apart. *)
Theorem fixed_clients_agree (fetch : Request -> outcome Response)
    (idempotencyKey paymentIntentId : string) (amount : number)
    (ts : Checkout.Timers) :
  Answer.reads_body_only fetch ->
  fst (Checkout.createOrder fetch paymentIntentId amount ts) =
    Checkout.createOrder_idempotent fetch idempotencyKey paymentIntentId amount.
Proof.
  intros Hfetch.
  unfold Checkout.createOrder, Checkout.createOrder_idempotent. simpl.
  now rewrite (Hfetch
    {| url := "/api/create-order"; method := "POST";
       headers := [("Content-Type", "application/json")];
       req_body :=
         JsonDoc (JObject
           [ ("paymentIntentId", JString paymentIntentId);
             ("amount", JSON_stringify_number amount);
             ("currency", JString "INR") ]);
       signal := Some (Checkout.next_id ts) |}
    {| url := "/api/create-order"; method := "POST";
       headers := [("Content-Type", "application/json");
                   ("Idempotency-Key", idempotencyKey)];
       req_body :=
         JsonDoc (JObject
           [ ("paymentIntentId", JString paymentIntentId);
             ("amount", JSON_stringify_number amount);
             ("currency", JString "INR") ]);
       signal := None |} eq_refl eq_refl eq_refl).
Qed.

Lemma fixed_clients_agree_witness :
  fst (Checkout.createOrder (serve "0.k3j") "pi_1" Page.amount_2499
         {| Checkout.next_id := 0; Checkout.armed := [] |}) =
    Checkout.createOrder_idempotent (serve "0.k3j") "key" "pi_1"
      Page.amount_2499.
Proof.
  apply (fixed_clients_agree (serve "0.k3j") "key" "pi_1" Page.amount_2499).
  apply serve_reads_body_only.
Defined.

Lemma filter_keeps_all {A : Type} (f : A -> bool) (l : list A) :
  (forall x, In x l -> f x = true) -> filter f l = l.
Proof.
  induction l as [|x rest IH]; intros Hall; simpl; [reflexivity|].
  rewrite (Hall x (or_introl eq_refl)), IH; [reflexivity|].
  intros y Hy. apply Hall. now right.
Qed.

(** The fixed client cleans up after itself: however the fetch ends,
    resolved or rejected, the timers armed afterwards are the ones armed
    before, one id has been used up, and every armed timer is still one
    that was handed out. *)
Theorem createOrder_timer_invariant (fetch : Request -> outcome Response)
    (paymentIntentId : string) (amount : number) (ts : Checkout.Timers) :
  Answer.timers_wf ts ->
  Checkout.armed (snd (Checkout.createOrder fetch paymentIntentId amount ts))
    = Checkout.armed ts /\
  Checkout.next_id (snd (Checkout.createOrder fetch paymentIntentId amount ts))
    = S (Checkout.next_id ts) /\
  Answer.timers_wf (snd (Checkout.createOrder fetch paymentIntentId amount ts)).
Proof.
  intros Hwf.
  assert (Harmed :
    Checkout.armed (snd (Checkout.createOrder fetch paymentIntentId amount ts))
      = Checkout.armed ts).
  { rewrite createOrder_disarms_timer. apply filter_keeps_all.
    intros t Ht. apply negb_true_iff, Nat.eqb_neq.
    specialize (Hwf t Ht). lia. }
  split; [exact Harmed|]. split; [reflexivity|].
  intros t Ht. rewrite Harmed in Ht.
  specialize (Hwf t Ht).
  change (Checkout.next_id
            (snd (Checkout.createOrder fetch paymentIntentId amount ts)))
    with (S (Checkout.next_id ts)).
  lia.
Qed.

Lemma createOrder_timer_invariant_witness :
  Checkout.armed
    (snd (Checkout.createOrder (fun _ => Rejected AbortError) "pi_1"
            Page.amount_2499
            {| Checkout.next_id := 3; Checkout.armed := [(1, 500%N)] |}))
    = [(1, 500%N)] /\
  Checkout.next_id
    (snd (Checkout.createOrder (fun _ => Rejected AbortError) "pi_1"
            Page.amount_2499
            {| Checkout.next_id := 3; Checkout.armed := [(1, 500%N)] |}))
    = 4 /\
  Answer.timers_wf
    (snd (Checkout.createOrder (fun _ => Rejected AbortError) "pi_1"
            Page.amount_2499
            {| Checkout.next_id := 3; Checkout.armed := [(1, 500%N)] |})).
Proof.
  apply (createOrder_timer_invariant (fun _ => Rejected AbortError) "pi_1"
           Page.amount_2499
           {| Checkout.next_id := 3; Checkout.armed := [(1, 500%N)] |}).
  intros t [<-|[]]. simpl. lia.
Defined.

(** ** The checkout page *)

(** While the order is in flight the page shows a disabled button and no
    panel, whatever the last attempt left behind. *)
Lemma pending_render (st : Page.PageState) :
  Page.render (Page.pending st) =
    {| Page.code_viewer := Page.showCode st;
       Page.toggle_says_hide := Page.showCode st;
       Page.button_disabled := true;
       Page.button_says_processing := true;
       Page.error_panel := None;
       Page.success_panel := false |}.
Proof. reflexivity. Qed.

(** Once [handleCheckout] has run, whatever [createOrder] did and whatever
    the page held before: the button is enabled again, the code toggle is
    untouched, and the page holds a success and no error when the order
    resolved, or the error's message and no success when it was rejected;
    the two panels are never shown together. *)
Theorem handleCheckout_settles
    (createOrder : string -> number -> outcome json)
    (engine_message : JsError -> string) (random36 : string)
    (st : Page.PageState) :
  Page.loading (Page.handleCheckout createOrder engine_message random36 st)
    = false /\
  Page.showCode (Page.handleCheckout createOrder engine_message random36 st)
    = Page.showCode st /\
  ((exists order,
      createOrder (String.append "pi_" (substr 2 9 random36)) Page.amount_2499
        = Resolved order /\
      Page.success
        (Page.handleCheckout createOrder engine_message random36 st) = true /\
      Page.error
        (Page.handleCheckout createOrder engine_message random36 st) = None)
   \/
   (exists err,
      createOrder (String.append "pi_" (substr 2 9 random36)) Page.amount_2499
        = Rejected err /\
      Page.success
        (Page.handleCheckout createOrder engine_message random36 st) = false /\
      Page.error
        (Page.handleCheckout createOrder engine_message random36 st)
        = Some (Page.message_of engine_message err))) /\
  (Page.success_panel
     (Page.render
        (Page.handleCheckout createOrder engine_message random36 st)) = true ->
   Page.error_panel
     (Page.render
        (Page.handleCheckout createOrder engine_message random36 st)) = None).
Proof.
  unfold Page.handleCheckout.
  destruct (createOrder (String.append "pi_" (substr 2 9 random36))
              Page.amount_2499) as [order|err] eqn:Hcreate; simpl.
  - split; [reflexivity|]. split; [reflexivity|]. split.
    + left. exists order. auto.
    + reflexivity.
  - split; [reflexivity|]. split; [reflexivity|]. split.
    + right. exists err. auto.
    + discriminate.
Qed.

(** Against the handler the page as shipped always ends on the failure:
    for every draw of the page and of the handler the button is enabled
    again, the error panel shows the handler's message about the missing
    currency, and no success is shown. *)
Theorem page_shows_server_message (engine_message : JsError -> string)
    (server_random36 page_random36 : string) (st : Page.PageState) :
  Page.render
    (Page.handleCheckout (Checkout.createOrder_buggy (serve server_random36))
       engine_message page_random36 st) =
    {| Page.code_viewer := Page.showCode st;
       Page.toggle_says_hide := Page.showCode st;
       Page.button_disabled := false;
       Page.button_says_processing := false;
       Page.error_panel := Some missing_currency_message;
       Page.success_panel := false |}.
Proof. reflexivity. Qed.

(** With either fixed [createOrder] in its place the same page ends on the
    success: no error panel, the success panel shown, the button enabled. *)
Theorem page_with_fixed_client_succeeds (engine_message : JsError -> string)
    (server_random36 page_random36 idempotencyKey : string)
    (ts : Checkout.Timers) (st : Page.PageState) :
  Page.render
    (Page.handleCheckout
       (Checkout.createOrder_idempotent (serve server_random36) idempotencyKey)
       engine_message page_random36 st) =
    {| Page.code_viewer := Page.showCode st;
       Page.toggle_says_hide := Page.showCode st;
       Page.button_disabled := false;
       Page.button_says_processing := false;
       Page.error_panel := None;
       Page.success_panel := true |} /\
  Page.render
    (Page.handleCheckout
       (fun paymentIntentId amount =>
          fst (Checkout.createOrder (serve server_random36) paymentIntentId
                 amount ts))
       engine_message page_random36 st) =
    {| Page.code_viewer := Page.showCode st;
       Page.toggle_says_hide := Page.showCode st;
       Page.button_disabled := false;
       Page.button_says_processing := false;
       Page.error_panel := None;
       Page.success_panel := true |}.
Proof. split; reflexivity. Qed.

(** An error whose message is empty leaves the page with neither panel:
    the page holds the error and renders nothing for it. *)
Lemma empty_message_shows_nothing
    (createOrder : string -> number -> outcome json)
    (engine_message : JsError -> string) (random36 : string)
    (st : Page.PageState) (err : JsError) :
  createOrder (String.append "pi_" (substr 2 9 random36)) Page.amount_2499
    = Rejected err ->
  Page.message_of engine_message err = EmptyString ->
  Page.error (Page.handleCheckout createOrder engine_message random36 st)
    = Some EmptyString /\
  Page.error_panel
    (Page.render (Page.handleCheckout createOrder engine_message random36 st))
    = None /\
  Page.success_panel
    (Page.render (Page.handleCheckout createOrder engine_message random36 st))
    = false.
Proof.
  intros Hcreate Hempty. unfold Page.handleCheckout.
  rewrite Hcreate. simpl. rewrite Hempty. repeat split.
Qed.


